(** * Model-initializer injection of the Seldon operator

    A shallow embedding of
    [pkg/controller/seldondeployment/model_initializer_injector.go]:
    the claim-URI parser [parsePvcURI] and the pod mutation
    [InjectModelInitializer], with the properties of the written
    specification stated and proved over them. *)

From Stdlib Require Import String Ascii List Bool Arith ZArith Lia.
Import ListNotations.
Open Scope string_scope.

(** ** The pieces of Go's [strings] package that the file calls

    Go strings are byte sequences; [string] is a list of [ascii] bytes. *)
Module strings.

(** [strings.HasPrefix(s, prefix)]. *)
Fixpoint HasPrefix (s prefix : string) {struct prefix} : bool :=
  match prefix with
  | EmptyString => true
  | String p prefix' =>
      match s with
      | EmptyString => false
      | String c s' => Ascii.eqb c p && HasPrefix s' prefix'
      end
  end.

(** The slice expression [s[n:]]. *)
Fixpoint sliceFrom (n : nat) (s : string) : string :=
  match n with
  | O => s
  | S n' =>
      match s with
      | EmptyString => EmptyString
      | String _ s' => sliceFrom n' s'
      end
  end.

(** [strings.TrimPrefix(s, prefix)]: [s[len(prefix):]] when [s] starts
    with [prefix], [s] itself otherwise. *)
Definition TrimPrefix (s prefix : string) : string :=
  if HasPrefix s prefix then sliceFrom (String.length prefix) s else s.

(** [strings.Compare(a, b)]: -1, 0 or 1 by byte-wise lexicographic order. *)
Definition Compare (a b : string) : Z :=
  match String.compare a b with
  | Eq => 0%Z
  | Lt => (-1)%Z
  | Gt => 1%Z
  end.

(** [strings.Split(s, sep)] for a separator of one byte, which is how
    the file calls it ([sep = "/"]).  The result always has at least
    one element: splitting the empty string gives [[""]]. *)
Fixpoint Split (s : string) (sep : ascii) : list string :=
  match s with
  | EmptyString => [EmptyString]
  | String c s' =>
      if Ascii.eqb c sep then EmptyString :: Split s' sep
      else match Split s' sep with
           | [] => [String c EmptyString]
           | seg :: segs => String c seg :: segs
           end
  end.

(** [strings.Join(elems, sep)]. *)
Definition Join (elems : list string) (sep : string) : string :=
  String.concat sep elems.

(** Whether byte [c] occurs in [s] ([strings.IndexByte(s, c) >= 0]). *)
Fixpoint ContainsByte (s : string) (c : ascii) : bool :=
  match s with
  | EmptyString => false
  | String d s' => Ascii.eqb d c || ContainsByte s' c
  end.

End strings.

(** ** Errors

    Go's [error] values, tagged by where the file gets them from. *)
Inductive error : Type :=
| InvalidURI (msg : string)
    (** the [fmt.Errorf("Invalid URI must be pvc://...")] of [parsePvcURI] *)
| ClientError (msg : string)
    (** an error returned by [Client.Get] *)
| CredentialError (msg : string)
    (** an error returned by [CreateSecretVolumeAndEnv] *).

Inductive result (A : Type) : Type :=
| Ok (a : A)
| Err (e : error).
Arguments Ok {A} a.
Arguments Err {A} e.

(** ** Constants of the package *)
Definition DefaultModelLocalMountPath : string := "/mnt/models".
Definition ModelInitializerContainerName : string := "model-initializer".
Definition ModelInitializerVolumeName : string := "kfserving-provision-location".
Definition ModelInitializerContainerImage : string := "gcr.io/kfserving/model-initializer".
Definition ModelInitializerContainerVersion : string := "latest".
Definition PvcURIPrefix : string := "pvc://".
Definition PvcSourceMountName : string := "kfserving-pvc-source".
Definition PvcSourceMountPath : string := "/mnt/pvc".
Definition UserContainerName : string := "user-container".
Definition ControllerConfigMapName : string := "seldon-config".

(** ** [parsePvcURI] *)
Definition parsePvcURI (srcURI : string) : result (string * string) :=
  let parts := strings.Split (strings.TrimPrefix srcURI PvcURIPrefix) "/"%char in
  if (1 <? List.length parts)%nat then
    Ok (nth 0 parts "", strings.Join (skipn 1 parts) "/")
  else if (List.length parts =? 1)%nat then
    Ok (nth 0 parts "", "")
  else
    Err (InvalidURI ("Invalid URI must be pvc://<pvcname>/[path]: " ++ srcURI)).


(** ** The Kubernetes objects, with the fields the file reads or writes *)
Module corev1.

Record VolumeMount : Type := {
  VolumeMount_Name : string;
  MountPath : string;
  ReadOnly : bool
}.

Record EnvVar : Type := {
  EnvVar_Name : string;
  Value : string
}.

Record Container : Type := {
  Container_Name : string;
  Image : string;
  Args : list string;
  Env : list EnvVar;
  VolumeMounts : list VolumeMount
}.

Record EmptyDirVolumeSource : Type := Build_EmptyDir { }.

Record PersistentVolumeClaimVolumeSource : Type := {
  ClaimName : string
}.

Record SecretVolumeSource : Type := {
  SecretName : string
}.

(** Each source is a pointer in Go: [None] is [nil]. *)
Record VolumeSource : Type := {
  EmptyDir : option EmptyDirVolumeSource;
  PersistentVolumeClaim : option PersistentVolumeClaimVolumeSource;
  Secret : option SecretVolumeSource
}.

Record Volume : Type := {
  Volume_Name : string;
  Source : VolumeSource
}.

(** [deployment.Spec.Template.Spec].  The user container reaches the
    function through a pointer of its own, so it is a separate component
    of the state; the pod's list of regular containers is neither read
    nor written through [podSpec]. *)
Record PodSpec : Type := {
  Volumes : list Volume;
  InitContainers : list Container;
  ServiceAccountName : string
}.

Definition set_VolumeMounts (c : Container) (ms : list VolumeMount) : Container :=
  {| Container_Name := Container_Name c; Image := Image c; Args := Args c;
     Env := Env c; VolumeMounts := ms |}.

Definition set_Volumes (p : PodSpec) (vs : list Volume) : PodSpec :=
  {| Volumes := vs; InitContainers := InitContainers p;
     ServiceAccountName := ServiceAccountName p |}.

Definition set_InitContainers (p : PodSpec) (cs : list Container) : PodSpec :=
  {| Volumes := Volumes p; InitContainers := cs;
     ServiceAccountName := ServiceAccountName p |}.

End corev1.

Module appsv1.

Record Deployment : Type := {
  Namespace : string;
  Spec : corev1.PodSpec  (** [Spec.Template.Spec] *)
}.

Definition set_Spec (d : Deployment) (p : corev1.PodSpec) : Deployment :=
  {| Namespace := Namespace d; Spec := p |}.

End appsv1.

Module types.

Record NamespacedName : Type := {
  Name : string;
  Namespace : string
}.

End types.

Import corev1.

(** ** The collaborators

    [client.Client] is an interface, and the credential builder lives in
    the package [credentials]; neither is part of this file.  They are
    taken as an interface: [Client_Get] is [Client.Get] for a config map
    (the left summand is the error it returns), and
    [CreateSecretVolumeAndEnv] receives the init container and the pod's
    volume list by pointer, so it returns both as it leaves them, with the
    error it returns, if any.  [ControllerNamespace] is read from the
    environment when the package is loaded. *)
Class Cluster : Type := {
  Client : Type;
  ConfigMap : Type;
  CredentialBuilder : Type;
  ControllerNamespace : string;
  Client_Get : Client -> types.NamespacedName -> string + ConfigMap;
  NewCredentialBulder : Client -> ConfigMap -> CredentialBuilder;
  CreateSecretVolumeAndEnv :
    CredentialBuilder -> string -> string -> Container -> list Volume ->
    Container * list Volume * option string
}.

(** The volumes and mounts the function builds. *)
Definition pvcSourceVolume (pvcName : string) : Volume :=
  {| Volume_Name := PvcSourceMountName;
     Source := {| EmptyDir := None;
                  PersistentVolumeClaim := Some {| ClaimName := pvcName |};
                  Secret := None |} |}.

Definition pvcSourceVolumeMount : VolumeMount :=
  {| VolumeMount_Name := PvcSourceMountName;
     MountPath := PvcSourceMountPath;
     ReadOnly := true |}.

Definition sharedVolume : Volume :=
  {| Volume_Name := ModelInitializerVolumeName;
     Source := {| EmptyDir := Some Build_EmptyDir;
                  PersistentVolumeClaim := None;
                  Secret := None |} |}.

Definition sharedVolumeWriteMount : VolumeMount :=
  {| VolumeMount_Name := ModelInitializerVolumeName;
     MountPath := DefaultModelLocalMountPath;
     ReadOnly := false |}.

Definition sharedVolumeReadMount : VolumeMount :=
  {| VolumeMount_Name := ModelInitializerVolumeName;
     MountPath := DefaultModelLocalMountPath;
     ReadOnly := true |}.

(** The state one call works on: the deployment and the user container,
    both passed by pointer and mutated in place. *)
Definition State : Type := (appsv1.Deployment * Container)%type.

Section Injector.

Context `{cluster : Cluster}.

(** ** [credentialsBuilder] *)
Definition credentialsBuilder (Client : Client) : result CredentialBuilder :=
  match Client_Get Client {| types.Name := ControllerConfigMapName;
                             types.Namespace := ControllerNamespace |} with
  | inl err => Err (ClientError err)
  | inr configMap => Ok (NewCredentialBulder Client configMap)
  end.

(** The scan of the init containers for the reserved name. *)
Definition alreadyInjected (podSpec : PodSpec) : bool :=
  existsb (fun container =>
             (strings.Compare (Container_Name container)
                              ModelInitializerContainerName =? 0)%Z)
          (InitContainers podSpec).

(** ** [InjectModelInitializer]

    The result is the state the call leaves behind and the error it
    returns ([None] is [nil]). *)
Definition InjectModelInitializer
    (deployment : appsv1.Deployment) (userContainer : Container)
    (srcURI serviceAccountName : string) (Client : Client)
  : State * option error :=
  let podSpec := appsv1.Spec deployment in
  if alreadyInjected podSpec then ((deployment, userContainer), None)
  else
    let podVolumes : list Volume := [] in
    let modelInitializerMounts : list VolumeMount := [] in
    match
      (if strings.HasPrefix srcURI PvcURIPrefix then
         match parsePvcURI srcURI with
         | Err err => Err err
         | Ok (pvcName, pvcPath) =>
             let podVolumes := (podVolumes ++ [pvcSourceVolume pvcName])%list in
             let modelInitializerMounts :=
               (modelInitializerMounts ++ [pvcSourceVolumeMount])%list in
             Ok (podVolumes, modelInitializerMounts,
                 PvcSourceMountPath ++ "/" ++ pvcPath)
         end
       else Ok (podVolumes, modelInitializerMounts, srcURI))
    with
    | Err err => ((deployment, userContainer), Some err)
    | Ok (podVolumes, modelInitializerMounts, srcURI) =>
        let podVolumes := (podVolumes ++ [sharedVolume])%list in
        let modelInitializerMounts :=
          (modelInitializerMounts ++ [sharedVolumeWriteMount])%list in
        let initContainer :=
          {| Container_Name := ModelInitializerContainerName;
             Image := ModelInitializerContainerImage ++ ":"
                      ++ ModelInitializerContainerVersion;
             Args := [srcURI; DefaultModelLocalMountPath];
             Env := [];
             VolumeMounts := modelInitializerMounts |} in
        let userContainer :=
          set_VolumeMounts userContainer
            (VolumeMounts userContainer ++ [sharedVolumeReadMount])%list in
        let podSpec :=
          set_Volumes podSpec (Volumes podSpec ++ podVolumes)%list in
        match credentialsBuilder Client with
        | Err err =>
            ((appsv1.set_Spec deployment podSpec, userContainer), Some err)
        | Ok credentialsBuilder =>
            let serviceAccountName :=
              if (serviceAccountName =? "")%string
              then ServiceAccountName podSpec else serviceAccountName in
            let '(initContainer, volumes, err) :=
              CreateSecretVolumeAndEnv credentialsBuilder
                (appsv1.Namespace deployment) serviceAccountName
                initContainer (Volumes podSpec) in
            let podSpec := set_Volumes podSpec volumes in
            match err with
            | Some msg =>
                ((appsv1.set_Spec deployment podSpec, userContainer),
                 Some (CredentialError msg))
            | None =>
                let podSpec :=
                  set_InitContainers podSpec
                    (InitContainers podSpec ++ [initContainer])%list in
                ((appsv1.set_Spec deployment podSpec, userContainer), None)
            end
        end
    end.

End Injector.

(** Two calls in a row with the same inputs, each on the state the one
    before left, as a reconcile loop that retries makes them. *)
Definition injectTwice `{Cluster}
    (deployment : appsv1.Deployment) (userContainer : Container)
    (srcURI serviceAccountName : string) (Client : Client)
  : State * option error :=
  let '((deployment', userContainer'), _) :=
    InjectModelInitializer deployment userContainer srcURI
                           serviceAccountName Client in
  InjectModelInitializer deployment' userContainer' srcURI
                         serviceAccountName Client.

(** Modelled from the spec: the contract of the Credential Injector, whose
    code (the package [credentials]) is not in this file.  It "may add
    volumes to that collection and mutate the container (add
    mounts/environment)": whatever it returns, the container keeps its name,
    image and arguments, its mounts are only appended to, and so is the
    volume list. *)
Definition CredentialContract `{Cluster} : Prop :=
  forall builder namespace serviceAccountName container volumes
         container' volumes' err,
    CreateSecretVolumeAndEnv builder namespace serviceAccountName
                             container volumes
    = (container', volumes', err) ->
    Container_Name container' = Container_Name container /\
    Image container' = Image container /\
    Args container' = Args container /\
    (exists mounts,
        VolumeMounts container' = (VolumeMounts container ++ mounts)%list) /\
    (exists added, volumes' = (volumes ++ added)%list).

(** An init container carries the reserved name. *)
Definition isModelInitializer (container : Container) : bool :=
  (Container_Name container =? ModelInitializerContainerName)%string.

(** ** Clusters to run the model on *)

(** The config map is there and the service account has no secrets: the
    credential step succeeds and adds nothing. *)
Definition plainCluster : Cluster :=
  {| Client := unit;
     ConfigMap := unit;
     CredentialBuilder := unit;
     ControllerNamespace := "seldon-system";
     Client_Get := fun _ _ => inr tt;
     NewCredentialBulder := fun _ _ => tt;
     CreateSecretVolumeAndEnv :=
       fun _ _ _ container volumes => (container, volumes, None) |}.

(** The config map is missing: [Client.Get] fails. *)
Definition noConfigMapCluster : Cluster :=
  {| Client := unit;
     ConfigMap := unit;
     CredentialBuilder := unit;
     ControllerNamespace := "seldon-system";
     Client_Get := fun _ _ => inl "configmaps seldon-config not found";
     NewCredentialBulder := fun _ _ => tt;
     CreateSecretVolumeAndEnv :=
       fun _ _ _ container volumes => (container, volumes, None) |}.

Definition gcsSecretVolume : Volume :=
  {| Volume_Name := "user-gcp-sa";
     Source := {| EmptyDir := None;
                  PersistentVolumeClaim := None;
                  Secret := Some {| SecretName := "user-gcp-sa" |} |} |}.

Definition gcsSecretMount : VolumeMount :=
  {| VolumeMount_Name := "user-gcp-sa";
     MountPath := "/var/secrets/";
     ReadOnly := true |}.

Definition gcsSecretEnv : EnvVar :=
  {| EnvVar_Name := "GOOGLE_APPLICATION_CREDENTIALS";
     Value := "/var/secrets/gcloud-application-credentials.json" |}.

(** Attaches a secret volume, its mount and an environment variable to
    whatever it is handed. *)
Definition attachGcsSecret (container : Container) (volumes : list Volume)
  : Container * list Volume :=
  ({| Container_Name := Container_Name container;
      Image := Image container;
      Args := Args container;
      Env := (Env container ++ [gcsSecretEnv])%list;
      VolumeMounts := (VolumeMounts container ++ [gcsSecretMount])%list |},
   (volumes ++ [gcsSecretVolume])%list).

(** The service account has one secret, with storage credentials. *)
Definition gcsCluster : Cluster :=
  {| Client := unit;
     ConfigMap := unit;
     CredentialBuilder := unit;
     ControllerNamespace := "seldon-system";
     Client_Get := fun _ _ => inr tt;
     NewCredentialBulder := fun _ _ => tt;
     CreateSecretVolumeAndEnv :=
       fun _ _ _ container volumes =>
         (attachGcsSecret container volumes, None) |}.

(** The credential builder attaches the secret and then fails, unless the
    service account is ["default"]. *)
Definition brokenSecretCluster : Cluster :=
  {| Client := unit;
     ConfigMap := unit;
     CredentialBuilder := unit;
     ControllerNamespace := "seldon-system";
     Client_Get := fun _ _ => inr tt;
     NewCredentialBulder := fun _ _ => tt;
     CreateSecretVolumeAndEnv :=
       fun _ _ serviceAccountName container volumes =>
         if (serviceAccountName =? "default")%string
         then (container, volumes, None)
         else (attachGcsSecret container volumes,
               Some "secret has no credential file") |}.

(** ** Objects to run the model on *)
Definition emptyDeployment : appsv1.Deployment :=
  {| appsv1.Namespace := "default";
     appsv1.Spec := {| Volumes := []; InitContainers := [];
                       ServiceAccountName := "" |} |}.

Definition classifier : Container :=
  {| Container_Name := "classifier";
     Image := "seldonio/sklearnserver:0.1";
     Args := []; Env := []; VolumeMounts := [] |}.

Definition transformer : Container :=
  {| Container_Name := "transformer";
     Image := "seldonio/sklearnserver:0.1";
     Args := []; Env := []; VolumeMounts := [] |}.

(** A deployment whose pod already has an init container with the
    reserved name. *)
Definition injectedDeployment : appsv1.Deployment :=
  {| appsv1.Namespace := "default";
     appsv1.Spec :=
       {| Volumes := [sharedVolume];
          InitContainers :=
            [ {| Container_Name := "model-initializer";
                 Image := "gcr.io/kfserving/model-initializer:latest";
                 Args := ["gs://bucket/model"; "/mnt/models"];
                 Env := [];
                 VolumeMounts := [sharedVolumeWriteMount] |} ];
          ServiceAccountName := "" |} |}.

(** The deployment that the first injection, for [classifier], leaves
    behind on [plainCluster]. *)
Definition servedDeployment : appsv1.Deployment :=
  fst (fst (InjectModelInitializer (cluster := plainCluster)
              emptyDeployment classifier "s3://bucket/model" "" tt)).

(** ** The ways a call can end

    What the URI stage (lines 77 to 104) hands on: the claim volume and its
    mount, if any, and the URI the init container will be given. *)
Inductive Staged (srcURI : string)
  : list Volume -> list VolumeMount -> string -> Prop :=
| StagedClaim (pvcName pvcPath : string) :
    strings.HasPrefix srcURI PvcURIPrefix = true ->
    parsePvcURI srcURI = Ok (pvcName, pvcPath) ->
    Staged srcURI [pvcSourceVolume pvcName] [pvcSourceVolumeMount]
           (PvcSourceMountPath ++ "/" ++ pvcPath)
| StagedOpaque :
    strings.HasPrefix srcURI PvcURIPrefix = false ->
    Staged srcURI [] [] srcURI.

(** The init container as built at lines 124 to 132. *)
Definition builtInitContainer (srcURI : string) (mounts : list VolumeMount)
  : Container :=
  {| Container_Name := ModelInitializerContainerName;
     Image := ModelInitializerContainerImage ++ ":"
              ++ ModelInitializerContainerVersion;
     Args := [srcURI; DefaultModelLocalMountPath];
     Env := [];
     VolumeMounts := (mounts ++ [sharedVolumeWriteMount])%list |}.

(** The user container after line 140. *)
Definition withReadMount (userContainer : Container) : Container :=
  set_VolumeMounts userContainer
    (VolumeMounts userContainer ++ [sharedVolumeReadMount])%list.

(** The deployment with its volume list replaced. *)
Definition withVolumes (deployment : appsv1.Deployment)
    (volumes : list Volume) : appsv1.Deployment :=
  appsv1.set_Spec deployment (set_Volumes (appsv1.Spec deployment) volumes).

(** The deployment with its volume list replaced and one more init
    container. *)
Definition withInitContainer (deployment : appsv1.Deployment)
    (volumes : list Volume) (container : Container) : appsv1.Deployment :=
  appsv1.set_Spec deployment
    (set_InitContainers (set_Volumes (appsv1.Spec deployment) volumes)
       (InitContainers (appsv1.Spec deployment) ++ [container])%list).

(** The service account the credential builder is called with
    (lines 150 to 152). *)
Definition effectiveServiceAccount (deployment : appsv1.Deployment)
    (serviceAccountName : string) : string :=
  if (serviceAccountName =? "")%string
  then ServiceAccountName (appsv1.Spec deployment)
  else serviceAccountName.

(** The four returns of [InjectModelInitializer] that can be reached, each
    with the state it leaves: the guard's (line 68), the two of the
    credential step (lines 148 and 160) and the last one (line 166). *)
Inductive Outcome `{Cluster}
    (deployment : appsv1.Deployment) (userContainer : Container)
    (srcURI serviceAccountName : string) (Client : Client)
  : State -> option error -> Prop :=
| NoOp :
    alreadyInjected (appsv1.Spec deployment) = true ->
    Outcome deployment userContainer srcURI serviceAccountName Client
            (deployment, userContainer) None
| NoConfigMap (vols : list Volume) (mounts : list VolumeMount)
              (effective msg : string) :
    alreadyInjected (appsv1.Spec deployment) = false ->
    Staged srcURI vols mounts effective ->
    Client_Get Client {| types.Name := ControllerConfigMapName;
                         types.Namespace := ControllerNamespace |}
    = inl msg ->
    Outcome deployment userContainer srcURI serviceAccountName Client
            (withVolumes deployment
               (Volumes (appsv1.Spec deployment) ++ vols ++ [sharedVolume])%list,
             withReadMount userContainer)
            (Some (ClientError msg))
| CredentialsFailed (vols : list Volume) (mounts : list VolumeMount)
                    (effective : string) (configMap : ConfigMap)
                    (container : Container) (volumes : list Volume)
                    (msg : string) :
    alreadyInjected (appsv1.Spec deployment) = false ->
    Staged srcURI vols mounts effective ->
    Client_Get Client {| types.Name := ControllerConfigMapName;
                         types.Namespace := ControllerNamespace |}
    = inr configMap ->
    CreateSecretVolumeAndEnv (NewCredentialBulder Client configMap)
      (appsv1.Namespace deployment)
      (effectiveServiceAccount deployment serviceAccountName)
      (builtInitContainer effective mounts)
      (Volumes (appsv1.Spec deployment) ++ vols ++ [sharedVolume])%list
    = (container, volumes, Some msg) ->
    Outcome deployment userContainer srcURI serviceAccountName Client
            (withVolumes deployment volumes, withReadMount userContainer)
            (Some (CredentialError msg))
| Committed (vols : list Volume) (mounts : list VolumeMount)
            (effective : string) (configMap : ConfigMap)
            (container : Container) (volumes : list Volume) :
    alreadyInjected (appsv1.Spec deployment) = false ->
    Staged srcURI vols mounts effective ->
    Client_Get Client {| types.Name := ControllerConfigMapName;
                         types.Namespace := ControllerNamespace |}
    = inr configMap ->
    CreateSecretVolumeAndEnv (NewCredentialBulder Client configMap)
      (appsv1.Namespace deployment)
      (effectiveServiceAccount deployment serviceAccountName)
      (builtInitContainer effective mounts)
      (Volumes (appsv1.Spec deployment) ++ vols ++ [sharedVolume])%list
    = (container, volumes, None) ->
    Outcome deployment userContainer srcURI serviceAccountName Client
            (withInitContainer deployment volumes container,
             withReadMount userContainer)
            None.

(** [n] calls in a row with the same inputs, each on the state the one
    before left; the error is that of the last call. *)
Fixpoint injectRepeatedly `{Cluster} (n : nat)
    (deployment : appsv1.Deployment) (userContainer : Container)
    (srcURI serviceAccountName : string) (Client : Client)
  : State * option error :=
  match n with
  | O => ((deployment, userContainer), None)
  | S n' =>
      let '((deployment', userContainer'), _) :=
        injectRepeatedly n' deployment userContainer srcURI
                         serviceAccountName Client in
      InjectModelInitializer deployment' userContainer' srcURI
                             serviceAccountName Client
  end.

(** A deployment that has a volume, an init container of its own and a
    service account, and not the reserved init container. *)
Definition configuredDeployment : appsv1.Deployment :=
  {| appsv1.Namespace := "models";
     appsv1.Spec :=
       {| Volumes := [ {| Volume_Name := "cache";
                          Source := {| EmptyDir := Some Build_EmptyDir;
                                       PersistentVolumeClaim := None;
                                       Secret := None |} |} ];
          InitContainers :=
            [ {| Container_Name := "wait-for-gateway";
                 Image := "busybox:1.31";
                 Args := ["sleep"; "5"];
                 Env := [];
                 VolumeMounts := [] |} ];
          ServiceAccountName := "model-reader" |} |}.

(** * Properties *)

(** ** Facts about the string functions *)
Module StringFacts.
Import strings.

Lemma compare_refl (s : string) : String.compare s s = Eq.
Proof.
  induction s as [|c s IH]; simpl; [reflexivity|].
  unfold Ascii.compare. now rewrite N.compare_refl.
Qed.

Lemma Compare_zero (a b : string) :
  (Compare a b =? 0)%Z = true <-> a = b.
Proof.
  unfold Compare. split.
  - destruct (String.compare a b) eqn:E; try discriminate.
    intros _. now apply String.compare_eq_iff.
  - intros ->. now rewrite compare_refl.
Qed.

Lemma Compare_eqb (a b : string) :
  (Compare a b =? 0)%Z = (a =? b)%string.
Proof.
  destruct (String.eqb_spec a b) as [->|Hne].
  - now apply Compare_zero.
  - destruct (Compare a b =? 0)%Z eqn:E; [|reflexivity].
    apply Compare_zero in E. contradiction.
Qed.

Lemma Split_not_nil (s : string) (sep : ascii) : Split s sep <> [].
Proof.
  destruct s as [|c s]; simpl; [discriminate|].
  destruct (Ascii.eqb c sep); [discriminate|].
  destruct (Split s sep); discriminate.
Qed.

Lemma Split_length_pos (s : string) (sep : ascii) :
  1 <= List.length (Split s sep).
Proof.
  pose proof (Split_not_nil s sep) as H.
  destruct (Split s sep); [contradiction|simpl; lia].
Qed.

(** A string without the separator is its own single segment. *)
Lemma Split_without_sep (s : string) (sep : ascii) :
  ContainsByte s sep = false -> Split s sep = [s].
Proof.
  induction s as [|c s IH]; simpl; [reflexivity|].
  intros H. apply orb_false_iff in H as [Hc Hs].
  rewrite Hc, (IH Hs). reflexivity.
Qed.

(** The first separator ends the first segment. *)
Lemma Split_at_first_sep (name path : string) (sep : ascii) :
  ContainsByte name sep = false ->
  Split (name ++ String sep path) sep = name :: Split path sep.
Proof.
  induction name as [|c name IH]; simpl.
  - intros _. now rewrite Ascii.eqb_refl.
  - intros H. apply orb_false_iff in H as [Hc Hs].
    rewrite Hc, (IH Hs). reflexivity.
Qed.

(** No segment contains the separator. *)
Lemma Split_segments_clean (s : string) (sep : ascii) :
  Forall (fun seg => ContainsByte seg sep = false) (Split s sep).
Proof.
  induction s as [|c s IH]; simpl.
  - constructor; [reflexivity|constructor].
  - destruct (Ascii.eqb c sep) eqn:E.
    + constructor; [reflexivity|exact IH].
    + destruct (Split s sep) as [|seg segs]; inversion IH; subst.
      * constructor; [simpl; now rewrite E|constructor].
      * constructor; [simpl; now rewrite E|assumption].
Qed.

(** Joining the segments with the separator gives the string back. *)
Lemma Join_Split (s : string) (sep : ascii) :
  Join (Split s sep) (String sep "") = s.
Proof.
  unfold Join. induction s as [|c s IH]; simpl; [reflexivity|].
  destruct (Ascii.eqb c sep) eqn:E.
  - apply Ascii.eqb_eq in E. subst c.
    pose proof (Split_not_nil s sep) as Hne.
    destruct (Split s sep) as [|seg segs]; [contradiction|].
    simpl in *. now rewrite IH.
  - pose proof (Split_not_nil s sep) as Hne.
    destruct (Split s sep) as [|seg segs]; [contradiction|].
    destruct segs as [|seg' segs]; simpl in *; now rewrite <- IH.
Qed.

Lemma HasPrefix_append (prefix rest : string) :
  HasPrefix (prefix ++ rest) prefix = true.
Proof.
  induction prefix as [|c prefix IH]; simpl; [reflexivity|].
  now rewrite Ascii.eqb_refl, IH.
Qed.

Lemma sliceFrom_append (prefix rest : string) :
  sliceFrom (String.length prefix) (prefix ++ rest) = rest.
Proof. induction prefix as [|c prefix IH]; simpl; [reflexivity|exact IH]. Qed.

(** Trimming a prefix that is there leaves what follows it. *)
Lemma TrimPrefix_append (prefix rest : string) :
  TrimPrefix (prefix ++ rest) prefix = rest.
Proof.
  unfold TrimPrefix. now rewrite HasPrefix_append, sliceFrom_append.
Qed.

End StringFacts.

(** ** The URI parser *)
Section ParserFacts.
Import strings StringFacts.

(** The two branches of [parsePvcURI] that return a result cover every
    input: the error branch needs an empty segment list, and [Split]
    never returns one. *)
Lemma parsePvcURI_total (srcURI : string) :
  exists pvcName pvcPath, parsePvcURI srcURI = Ok (pvcName, pvcPath).
Proof.
  unfold parsePvcURI.
  pose proof (Split_length_pos (TrimPrefix srcURI PvcURIPrefix) "/") as Hlen.
  destruct (Nat.ltb_spec 1
              (List.length (Split (TrimPrefix srcURI PvcURIPrefix) "/"))).
  - eauto.
  - destruct (Nat.eqb_spec
                (List.length (Split (TrimPrefix srcURI PvcURIPrefix) "/")) 1).
    + eauto.
    + lia.
Qed.

Lemma parsePvcURI_no_error (srcURI : string) (e : error) :
  parsePvcURI srcURI <> Err e.
Proof.
  destruct (parsePvcURI_total srcURI) as (n & p & ->). discriminate.
Qed.

End ParserFacts.

(** C1.  The claim is that [parsePvcURI] fails with [InvalidURI] on
    ["pvc://"], whose remainder after the prefix is empty.  The code does
    not: [Split] of the empty remainder is the one-element list [[""]], so
    the call takes the single-segment branch and returns the empty claim
    name and the empty sub-path with no error. *)
Theorem parsePvcURI_empty_remainder :
  strings.TrimPrefix "pvc://" PvcURIPrefix = "" /\
  strings.Split "" "/" = [""] /\
  parsePvcURI "pvc://" = Ok ("", "").
Proof. repeat split. Qed.

(** C8.  When the remainder after the [pvc://] prefix is not empty,
    [parsePvcURI] returns no error and: with more than one segment, the
    first segment as the claim name and the other segments joined with
    ['/'] as the sub-path, so that name, ['/'] and sub-path spell the
    remainder; with exactly one segment, that segment, which is the whole
    remainder, as the claim name and the empty sub-path.  One of the two
    cases always applies. *)
Theorem parsePvcURI_segments (srcURI : string) :
  let remainder := strings.TrimPrefix srcURI PvcURIPrefix in
  let parts := strings.Split remainder "/" in
  remainder <> "" ->
  (1 < List.length parts ->
     parsePvcURI srcURI = Ok (hd "" parts, strings.Join (tl parts) "/") /\
     strings.ContainsByte (hd "" parts) "/" = false /\
     remainder = hd "" parts ++ "/" ++ strings.Join (tl parts) "/") /\
  (List.length parts = 1 ->
     parsePvcURI srcURI = Ok (hd "" parts, "") /\
     parts = [remainder]) /\
  (1 < List.length parts \/ List.length parts = 1).
Proof.
  intros remainder parts _.
  pose proof (StringFacts.Split_length_pos remainder "/") as Hpos.
  pose proof (StringFacts.Join_Split remainder "/") as Hjoin.
  pose proof (StringFacts.Split_segments_clean remainder "/") as Hclean.
  fold parts in Hpos, Hjoin, Hclean.
  assert (Hparse : parsePvcURI srcURI =
                   if (1 <? List.length parts)%nat
                   then Ok (nth 0 parts "", strings.Join (skipn 1 parts) "/")
                   else if (List.length parts =? 1)%nat
                        then Ok (nth 0 parts "", "")
                        else Err (InvalidURI
                                    ("Invalid URI must be pvc://<pvcname>/[path]: "
                                       ++ srcURI))) by reflexivity.
  split; [|split].
  - intros Hlt. repeat split.
    + rewrite Hparse.
      destruct (Nat.ltb_spec 1 (List.length parts)); [|lia].
      destruct parts as [|seg segs]; reflexivity.
    + destruct parts as [|seg segs]; [reflexivity|].
      now inversion Hclean.
    + destruct parts as [|seg [|seg' segs]]; simpl in *; try lia.
      unfold strings.Join in *. simpl in Hjoin. now rewrite Hjoin.
  - intros Hone. split.
    + rewrite Hparse.
      destruct (Nat.ltb_spec 1 (List.length parts)); [lia|].
      rewrite Hone. simpl. destruct parts as [|seg segs]; reflexivity.
    + destruct parts as [|seg [|seg' segs]]; simpl in *; try lia.
      unfold strings.Join in Hjoin. simpl in Hjoin. now subst seg.
  - lia.
Qed.

Lemma parsePvcURI_segments_witness :
  strings.TrimPrefix "pvc://claim1/sub/dir" PvcURIPrefix <> "" /\
  parsePvcURI "pvc://claim1/sub/dir" = Ok ("claim1", "sub/dir").
Proof.
  assert (H : strings.TrimPrefix "pvc://claim1/sub/dir" PvcURIPrefix <> "")
    by (vm_compute; discriminate).
  split; [exact H|].
  destruct (parsePvcURI_segments "pvc://claim1/sub/dir" H) as [Hmany _].
  apply Hmany. vm_compute. lia.
Defined.

(** ** The injection *)
Section InjectorFacts.

Context `{cluster : Cluster}.

(** The guard fires exactly when some init container has the reserved
    name. *)
Lemma alreadyInjected_true (podSpec : PodSpec) :
  alreadyInjected podSpec = true <->
  exists container,
    In container (InitContainers podSpec) /\
    Container_Name container = ModelInitializerContainerName.
Proof.
  unfold alreadyInjected. rewrite existsb_exists.
  split; intros (c & Hin & Hc); exists c; split; trivial;
    now apply StringFacts.Compare_zero.
Qed.

Lemma alreadyInjected_false (podSpec : PodSpec) :
  alreadyInjected podSpec = false <->
  forall container,
    In container (InitContainers podSpec) ->
    Container_Name container <> ModelInitializerContainerName.
Proof.
  split.
  - intros Hf c Hin Hc.
    assert (alreadyInjected podSpec = true)
      by (apply alreadyInjected_true; eauto).
    congruence.
  - intros Hall. destruct (alreadyInjected podSpec) eqn:E; [|reflexivity].
    apply alreadyInjected_true in E as (c & Hin & Hc).
    now destruct (Hall c Hin).
Qed.

Lemma alreadyInjected_filter (podSpec : PodSpec) :
  alreadyInjected podSpec = false ->
  filter isModelInitializer (InitContainers podSpec) = [].
Proof.
  unfold alreadyInjected, isModelInitializer.
  induction (InitContainers podSpec) as [|c cs IH]; simpl; [reflexivity|].
  intros H. apply orb_false_iff in H as [Hc Hcs].
  rewrite StringFacts.Compare_eqb in Hc. rewrite Hc. now apply IH.
Qed.

(** The URI stage always hands something on. *)
Lemma staged_exists (srcURI : string) :
  exists vols mounts effective, Staged srcURI vols mounts effective.
Proof.
  destruct (strings.HasPrefix srcURI PvcURIPrefix) eqn:E.
  - destruct (parsePvcURI_total srcURI) as (n & p & Hp).
    do 3 eexists. eapply StagedClaim; eassumption.
  - do 3 eexists. now apply StagedOpaque.
Qed.

(** Every call ends in one of the four ways of [Outcome]. *)
Lemma InjectModelInitializer_outcome
    (deployment : appsv1.Deployment) (userContainer : Container)
    (srcURI serviceAccountName : string) (Client : Client) :
  Outcome deployment userContainer srcURI serviceAccountName Client
          (fst (InjectModelInitializer deployment userContainer srcURI
                  serviceAccountName Client))
          (snd (InjectModelInitializer deployment userContainer srcURI
                  serviceAccountName Client)).
Proof.
  unfold InjectModelInitializer.
  destruct (alreadyInjected (appsv1.Spec deployment)) eqn:Hguard.
  - now apply NoOp.
  - assert (Hstage :
      exists vols mounts effective,
        Staged srcURI vols mounts effective /\
        (if strings.HasPrefix srcURI PvcURIPrefix
         then match parsePvcURI srcURI with
              | Ok (pvcName, pvcPath) =>
                  Ok (([] ++ [pvcSourceVolume pvcName])%list,
                      ([] ++ [pvcSourceVolumeMount])%list,
                      PvcSourceMountPath ++ "/" ++ pvcPath)
              | Err err => Err err
              end
         else Ok ([], [], srcURI))
        = Ok (vols, mounts, effective)).
    { destruct (strings.HasPrefix srcURI PvcURIPrefix) eqn:E.
      - destruct (parsePvcURI_total srcURI) as (n & p & Hp).
        rewrite Hp. do 3 eexists. split; [|reflexivity].
        now apply StagedClaim.
      - do 3 eexists. split; [|reflexivity]. now apply StagedOpaque. }
    destruct Hstage as (vols & mounts & effective & Hst & ->).
    unfold credentialsBuilder.
    destruct (Client_Get Client _) as [msg|configMap] eqn:Hget.
    + simpl. eapply NoConfigMap; eassumption.
    + cbn [set_Volumes Volumes].
      change (if (serviceAccountName =? "")%string
              then ServiceAccountName
                     (set_Volumes (appsv1.Spec deployment)
                        (Volumes (appsv1.Spec deployment)
                           ++ vols ++ [sharedVolume])%list)
              else serviceAccountName)
        with (effectiveServiceAccount deployment serviceAccountName).
      change {| Container_Name := ModelInitializerContainerName;
                Image := ModelInitializerContainerImage ++ ":"
                         ++ ModelInitializerContainerVersion;
                Args := [effective; DefaultModelLocalMountPath];
                Env := [];
                VolumeMounts := (mounts ++ [sharedVolumeWriteMount])%list |}
        with (builtInitContainer effective mounts).
      destruct (CreateSecretVolumeAndEnv _ _ _ _ _)
        as [[container volumes] [msg|]] eqn:Hcred; simpl.
      * eapply CredentialsFailed; eassumption.
      * eapply Committed; eassumption.
Qed.

(** The same, for a call whose result is known. *)
Lemma InjectModelInitializer_inv
    (deployment : appsv1.Deployment) (userContainer : Container)
    (srcURI serviceAccountName : string) (Client : Client)
    (state : State) (err : option error) :
  InjectModelInitializer deployment userContainer srcURI
                         serviceAccountName Client = (state, err) ->
  Outcome deployment userContainer srcURI serviceAccountName Client
          state err.
Proof.
  intros H.
  pose proof (InjectModelInitializer_outcome deployment userContainer
                srcURI serviceAccountName Client) as Hout.
  now rewrite H in Hout.
Qed.

(** With the guard set, the call returns at once. *)
Lemma InjectModelInitializer_guarded
    (deployment : appsv1.Deployment) (userContainer : Container)
    (srcURI serviceAccountName : string) (Client : Client) :
  alreadyInjected (appsv1.Spec deployment) = true ->
  InjectModelInitializer deployment userContainer srcURI
                         serviceAccountName Client
  = ((deployment, userContainer), None).
Proof. intros H. unfold InjectModelInitializer. now rewrite H. Qed.

End InjectorFacts.

Section Claims.

Context `{cluster : Cluster}.

Variables (deployment : appsv1.Deployment) (userContainer : Container).
Variables (srcURI serviceAccountName : string) (Client : Client).

(** What the contract says of the container and the volume list that the
    credential builder was handed. *)
Lemma contract_on_built
    (builder : CredentialBuilder) (namespace account effective : string)
    (mounts : list VolumeMount) (volumes0 : list Volume)
    (container : Container) (volumes : list Volume) (err : option string) :
  CredentialContract ->
  CreateSecretVolumeAndEnv builder namespace account
    (builtInitContainer effective mounts) volumes0
  = (container, volumes, err) ->
  Container_Name container = ModelInitializerContainerName /\
  Image container = ModelInitializerContainerImage ++ ":"
                    ++ ModelInitializerContainerVersion /\
  Args container = [effective; DefaultModelLocalMountPath] /\
  (exists more,
      VolumeMounts container
      = (mounts ++ [sharedVolumeWriteMount] ++ more)%list) /\
  (exists added, volumes = (volumes0 ++ added)%list).
Proof.
  intros Hcontract Hcall.
  destruct (Hcontract _ _ _ _ _ _ _ _ Hcall)
    as (Hname & Himage & Hargs & (more & Hmounts) & Hvols).
  repeat split; try assumption.
  exists more. rewrite Hmounts. simpl. now rewrite <- app_assoc.
Qed.


(** C9.  The guard comes before any look at the URI: when the pod
    already has an init container with the reserved name, the call
    returns [nil] and leaves the state as it was, whatever the source
    URI is. *)
Theorem guard_precedes_uri_validation :
  (exists container,
      In container (InitContainers (appsv1.Spec deployment)) /\
      Container_Name container = ModelInitializerContainerName) ->
  InjectModelInitializer deployment userContainer srcURI
                         serviceAccountName Client
  = ((deployment, userContainer), None).
Proof.
  intros H. apply InjectModelInitializer_guarded.
  now apply alreadyInjected_true.
Qed.

(** C2 (amended).  When the first call returns [nil], and the credential
    builder keeps to its contract, a second call with the same inputs
    returns [nil] too and leaves the state as the first call left it; and
    when the pod already has an init container with the reserved name,
    a call returns [nil] and changes nothing. *)
Theorem injection_idempotent_after_success :
  CredentialContract ->
  (snd (InjectModelInitializer deployment userContainer srcURI
          serviceAccountName Client) = None ->
   injectTwice deployment userContainer srcURI serviceAccountName Client
   = InjectModelInitializer deployment userContainer srcURI
                            serviceAccountName Client) /\
  ((exists container,
       In container (InitContainers (appsv1.Spec deployment)) /\
       Container_Name container = ModelInitializerContainerName) ->
   InjectModelInitializer deployment userContainer srcURI
                          serviceAccountName Client
   = ((deployment, userContainer), None)).
Proof.
  intros Hcontract. split.
  - unfold injectTwice.
    destruct (InjectModelInitializer deployment userContainer srcURI
                serviceAccountName Client) as [[deployment' user'] err] eqn:E.
    simpl. intros ->.
    apply InjectModelInitializer_inv in E.
    apply InjectModelInitializer_guarded.
    inversion E; subst.
    + assumption.
    + match goal with
      | Hcall : CreateSecretVolumeAndEnv _ _ _ _ _ = _ |- _ =>
          destruct (contract_on_built _ _ _ _ _ _ _ _ _ Hcontract Hcall)
            as (Hname & _)
      end.
      apply alreadyInjected_true. exists container. split; [|exact Hname].
      simpl. apply in_or_app. right. now left.
  - intros H. apply InjectModelInitializer_guarded.
    now apply alreadyInjected_true.
Qed.



(** What a call that returns [nil] without the guard having fired leaves
    behind: the last of the four outcomes. *)
Lemma fresh_success_committed
    (deployment' : appsv1.Deployment) (userContainer' : Container) :
  CredentialContract ->
  (forall container,
      In container (InitContainers (appsv1.Spec deployment)) ->
      Container_Name container <> ModelInitializerContainerName) ->
  InjectModelInitializer deployment userContainer srcURI
                         serviceAccountName Client
  = ((deployment', userContainer'), None) ->
  exists vols mounts effective configMap container more added,
    Staged srcURI vols mounts effective /\
    CreateSecretVolumeAndEnv (NewCredentialBulder Client configMap)
      (appsv1.Namespace deployment)
      (effectiveServiceAccount deployment serviceAccountName)
      (builtInitContainer effective mounts)
      (Volumes (appsv1.Spec deployment) ++ vols ++ [sharedVolume])%list
    = (container, Volumes (appsv1.Spec deployment'), None) /\
    InitContainers (appsv1.Spec deployment')
    = (InitContainers (appsv1.Spec deployment) ++ [container])%list /\
    Volumes (appsv1.Spec deployment')
    = (Volumes (appsv1.Spec deployment)
         ++ (vols ++ [sharedVolume]) ++ added)%list /\
    Container_Name container = ModelInitializerContainerName /\
    Image container = ModelInitializerContainerImage ++ ":"
                      ++ ModelInitializerContainerVersion /\
    Args container = [effective; DefaultModelLocalMountPath] /\
    VolumeMounts container
    = (mounts ++ [sharedVolumeWriteMount] ++ more)%list /\
    userContainer' = withReadMount userContainer.
Proof.
  intros Hcontract Hfresh H.
  apply alreadyInjected_false in Hfresh.
  apply InjectModelInitializer_inv in H.
  inversion H; subst; [congruence|].
  match goal with
  | Hcall : CreateSecretVolumeAndEnv _ _ _ _ _ = _ |- _ =>
      destruct (contract_on_built _ _ _ _ _ _ _ _ _ Hcontract Hcall)
        as (Hname & Himage & Hargs & (more & Hmounts) & (added & Hvols));
      pose proof Hcall as Hcall'
  end.
  exists vols, mounts, effective, configMap, container, more, added.
  simpl. subst volumes.
  repeat split; try assumption.
  now rewrite <- app_assoc.
Qed.

(** C5.  After a call that returns [nil] on a pod that had no init
    container with the reserved name, the pod has exactly one: the
    container appended last.  It has two arguments, and the second one is
    the local mount path, [/mnt/models].  The credential builder keeps to
    its contract. *)
Theorem injected_container_shape
    (deployment' : appsv1.Deployment) (userContainer' : Container) :
  CredentialContract ->
  (forall container,
      In container (InitContainers (appsv1.Spec deployment)) ->
      Container_Name container <> ModelInitializerContainerName) ->
  InjectModelInitializer deployment userContainer srcURI
                         serviceAccountName Client
  = ((deployment', userContainer'), None) ->
  exists container,
    InitContainers (appsv1.Spec deployment')
    = (InitContainers (appsv1.Spec deployment) ++ [container])%list /\
    Container_Name container = ModelInitializerContainerName /\
    filter isModelInitializer (InitContainers (appsv1.Spec deployment'))
    = [container] /\
    List.length (Args container) = 2 /\
    nth 1 (Args container) "" = DefaultModelLocalMountPath /\
    nth 1 (Args container) "" = "/mnt/models".
Proof.
  intros Hcontract Hfresh H.
  destruct (fresh_success_committed _ _ Hcontract Hfresh H)
    as (vols & mounts & effective & configMap & container & more & added
        & _ & _ & Hinit & _ & Hname & _ & Hargs & _).
  exists container. rewrite Hinit, Hargs.
  repeat split; try assumption.
  rewrite filter_app.
  rewrite (alreadyInjected_filter _ (proj2 (alreadyInjected_false _) Hfresh)).
  simpl. unfold isModelInitializer. rewrite Hname.
  now rewrite String.eqb_refl.
Qed.

(** C6 (amended).  After a call that returns [nil] on a pod that had no
    init container with the reserved name: the init container appended
    mounts the scratch volume read-write, the user container mounts it
    read-only, both at the same path, and the scratch volume is among the
    pod's volumes; for a claim URI, the init container mounts the claim
    volume read-only, and the claim volume is among the pod's volumes.
    The credential builder keeps to its contract. *)
Theorem mounts_after_fresh_injection
    (deployment' : appsv1.Deployment) (userContainer' : Container) :
  CredentialContract ->
  (forall container,
      In container (InitContainers (appsv1.Spec deployment)) ->
      Container_Name container <> ModelInitializerContainerName) ->
  InjectModelInitializer deployment userContainer srcURI
                         serviceAccountName Client
  = ((deployment', userContainer'), None) ->
  exists container,
    InitContainers (appsv1.Spec deployment')
    = (InitContainers (appsv1.Spec deployment) ++ [container])%list /\
    In sharedVolume (Volumes (appsv1.Spec deployment')) /\
    In sharedVolumeWriteMount (VolumeMounts container) /\
    VolumeMount_Name sharedVolumeWriteMount = Volume_Name sharedVolume /\
    ReadOnly sharedVolumeWriteMount = false /\
    VolumeMounts userContainer'
    = (VolumeMounts userContainer ++ [sharedVolumeReadMount])%list /\
    VolumeMount_Name sharedVolumeReadMount = Volume_Name sharedVolume /\
    ReadOnly sharedVolumeReadMount = true /\
    MountPath sharedVolumeWriteMount = MountPath sharedVolumeReadMount /\
    (strings.HasPrefix srcURI PvcURIPrefix = true ->
     (exists pvcName, In (pvcSourceVolume pvcName)
                         (Volumes (appsv1.Spec deployment'))) /\
     In pvcSourceVolumeMount (VolumeMounts container) /\
     VolumeMount_Name pvcSourceVolumeMount = PvcSourceMountName /\
     ReadOnly pvcSourceVolumeMount = true).
Proof.
  intros Hcontract Hfresh H.
  destruct (fresh_success_committed _ _ Hcontract Hfresh H)
    as (vols & mounts & effective & configMap & container & more & added
        & Hst & _ & Hinit & Hvols & _ & _ & _ & Hmounts & ->).
  exists container. rewrite Hvols, Hmounts.
  repeat split; try assumption.
  - rewrite !in_app_iff. simpl. tauto.
  - rewrite !in_app_iff. simpl. tauto.
  - inversion Hst; subst; [|congruence].
    exists pvcName. simpl. rewrite in_app_iff. simpl. tauto.
  - inversion Hst; subst; [|congruence]. simpl. tauto.
Qed.

(** C4.  For a claim URI, after a call that returns [nil] on a pod that
    had no init container with the reserved name: the first argument of
    the init container appended is the staging path, ['/'] and the
    sub-path that [parsePvcURI] returns (for an empty sub-path,
    [/mnt/pvc/], with one separator at its end), and the call itself
    has added exactly two volumes, the claim volume for the claim name
    parsed and the scratch volume: these two follow the pod's earlier
    volumes, and whatever follows them is what the credential builder
    appended to the list it was handed.  The credential builder keeps
    to its contract. *)
Theorem claim_uri_rewritten
    (deployment' : appsv1.Deployment) (userContainer' : Container) :
  CredentialContract ->
  (forall container,
      In container (InitContainers (appsv1.Spec deployment)) ->
      Container_Name container <> ModelInitializerContainerName) ->
  strings.HasPrefix srcURI PvcURIPrefix = true ->
  InjectModelInitializer deployment userContainer srcURI
                         serviceAccountName Client
  = ((deployment', userContainer'), None) ->
  exists pvcName pvcPath container added,
    parsePvcURI srcURI = Ok (pvcName, pvcPath) /\
    InitContainers (appsv1.Spec deployment')
    = (InitContainers (appsv1.Spec deployment) ++ [container])%list /\
    nth 0 (Args container) "" = PvcSourceMountPath ++ "/" ++ pvcPath /\
    (pvcPath = "" -> nth 0 (Args container) "" = "/mnt/pvc/") /\
    Volumes (appsv1.Spec deployment')
    = (Volumes (appsv1.Spec deployment)
         ++ [pvcSourceVolume pvcName; sharedVolume] ++ added)%list /\
    PersistentVolumeClaim (Source (pvcSourceVolume pvcName))
    = Some {| ClaimName := pvcName |} /\
    (exists configMap built,
        CreateSecretVolumeAndEnv (NewCredentialBulder Client configMap)
          (appsv1.Namespace deployment)
          (effectiveServiceAccount deployment serviceAccountName)
          built
          (Volumes (appsv1.Spec deployment)
             ++ [pvcSourceVolume pvcName; sharedVolume])%list
        = (container,
           (Volumes (appsv1.Spec deployment)
              ++ [pvcSourceVolume pvcName; sharedVolume] ++ added)%list,
           None)).
Proof.
  intros Hcontract Hfresh Hclaim H.
  destruct (fresh_success_committed _ _ Hcontract Hfresh H)
    as (vols & mounts & effective & configMap & container & more & added
        & Hst & Hcall & Hinit & Hvols & _ & _ & Hargs & _).
  inversion Hst; subst; [|congruence].
  exists pvcName, pvcPath, container, added.
  rewrite Hargs. rewrite Hvols in Hcall. simpl in *.
  repeat split; try assumption.
  - now intros ->.
  - eauto.
Qed.

(** C7.  For a URI that does not start with [pvc://], after a call that
    returns [nil] on a pod that had no init container with the reserved
    name: the init container appended has the default image and tag and
    the arguments [srcURI] and the local mount path, so the URI is passed
    through as it came; the call itself has added exactly one volume, the
    scratch volume, after the pod's earlier volumes, and whatever follows
    it is what the credential builder appended to the list it was
    handed, on behalf of the pod's own service account when no other is
    named; and the user container has one more mount, the read-only mount
    of the scratch volume.  The credential builder keeps to its
    contract. *)
Theorem opaque_uri_passed_through
    (deployment' : appsv1.Deployment) (userContainer' : Container) :
  CredentialContract ->
  (forall container,
      In container (InitContainers (appsv1.Spec deployment)) ->
      Container_Name container <> ModelInitializerContainerName) ->
  strings.HasPrefix srcURI PvcURIPrefix = false ->
  InjectModelInitializer deployment userContainer srcURI
                         serviceAccountName Client
  = ((deployment', userContainer'), None) ->
  exists container added,
    InitContainers (appsv1.Spec deployment')
    = (InitContainers (appsv1.Spec deployment) ++ [container])%list /\
    Image container = ModelInitializerContainerImage ++ ":"
                      ++ ModelInitializerContainerVersion /\
    Args container = [srcURI; DefaultModelLocalMountPath] /\
    Volumes (appsv1.Spec deployment')
    = (Volumes (appsv1.Spec deployment) ++ [sharedVolume] ++ added)%list /\
    (exists configMap built,
        CreateSecretVolumeAndEnv (NewCredentialBulder Client configMap)
          (appsv1.Namespace deployment)
          (if (serviceAccountName =? "")%string
           then ServiceAccountName (appsv1.Spec deployment)
           else serviceAccountName)
          built
          (Volumes (appsv1.Spec deployment) ++ [sharedVolume])%list
        = (container,
           (Volumes (appsv1.Spec deployment) ++ [sharedVolume] ++ added)%list,
           None)) /\
    VolumeMounts userContainer'
    = (VolumeMounts userContainer ++ [sharedVolumeReadMount])%list /\
    ReadOnly sharedVolumeReadMount = true.
Proof.
  intros Hcontract Hfresh Hopaque H.
  destruct (fresh_success_committed _ _ Hcontract Hfresh H)
    as (vols & mounts & effective & configMap & container & more & added
        & Hst & Hcall & Hinit & Hvols & _ & Himage & Hargs & _ & ->).
  inversion Hst; subst; [congruence|].
  exists container, added.
  rewrite Hvols in Hcall. simpl in *.
  repeat split; try assumption.
  eauto.
Qed.

End Claims.

(** ** The sample clusters keep to the contract *)

Lemma plainCluster_contract : CredentialContract (H := plainCluster).
Proof.
  intros builder namespace account container volumes container' volumes' err H.
  simpl in H. inversion H; subst.
  repeat split; exists []; now rewrite app_nil_r.
Qed.

Lemma attachGcsSecret_contract
    (container container' : Container) (volumes volumes' : list Volume) :
  attachGcsSecret container volumes = (container', volumes') ->
  Container_Name container' = Container_Name container /\
  Image container' = Image container /\
  Args container' = Args container /\
  (exists mounts,
      VolumeMounts container' = (VolumeMounts container ++ mounts)%list) /\
  (exists added, volumes' = (volumes ++ added)%list).
Proof.
  unfold attachGcsSecret. intros H. inversion H; subst; simpl.
  repeat split; eauto.
Qed.

Lemma gcsCluster_contract : CredentialContract (H := gcsCluster).
Proof.
  intros builder namespace account container volumes container' volumes' err H.
  simpl in H.
  apply (attachGcsSecret_contract container container' volumes volumes').
  congruence.
Qed.

Lemma brokenSecretCluster_contract :
  CredentialContract (H := brokenSecretCluster).
Proof.
  intros builder namespace account container volumes container' volumes' err H.
  simpl in H. destruct (account =? "default")%string.
  - inversion H; subst. repeat split; exists []; now rewrite app_nil_r.
  - apply (attachGcsSecret_contract container container' volumes volumes').
    congruence.
Qed.

Lemma noConfigMapCluster_contract :
  CredentialContract (H := noConfigMapCluster).
Proof.
  intros builder namespace account container volumes container' volumes' err H.
  simpl in H. inversion H; subst.
  repeat split; exists []; now rewrite app_nil_r.
Qed.

Lemma emptyDeployment_fresh :
  forall container,
    In container (InitContainers (appsv1.Spec emptyDeployment)) ->
    Container_Name container <> ModelInitializerContainerName.
Proof. intros container []. Qed.

(** ** The claims on the sample clusters *)

(** A claim URI with nothing after the prefix, on a pod that has the init
    container: the call returns [nil] and changes nothing. *)
Lemma guard_precedes_uri_validation_witness :
  (exists container,
      In container (InitContainers (appsv1.Spec injectedDeployment)) /\
      Container_Name container = ModelInitializerContainerName) /\
  InjectModelInitializer (cluster := noConfigMapCluster)
    injectedDeployment classifier "pvc://" "" tt
  = ((injectedDeployment, classifier), None).
Proof.
  assert (H : exists container,
             In container (InitContainers (appsv1.Spec injectedDeployment)) /\
             Container_Name container = ModelInitializerContainerName).
  { eexists. split; [left; reflexivity|reflexivity]. }
  split; [exact H|].
  exact (guard_precedes_uri_validation (cluster := noConfigMapCluster)
           injectedDeployment classifier "pvc://" "" tt H).
Defined.

(** C2 as stated fails: when the config map is missing, the first call
    returns an error after it has appended the scratch volume and the user
    container's mount, and the second call appends both again. *)
Lemma retry_after_failure_duplicates :
  fst (injectTwice (H := noConfigMapCluster)
         emptyDeployment classifier "s3://bucket/model" "" tt)
  <> fst (InjectModelInitializer (cluster := noConfigMapCluster)
            emptyDeployment classifier "s3://bucket/model" "" tt) /\
  Volumes (appsv1.Spec (fst (fst
    (InjectModelInitializer (cluster := noConfigMapCluster)
       emptyDeployment classifier "s3://bucket/model" "" tt))))
  = [sharedVolume] /\
  Volumes (appsv1.Spec (fst (fst
    (injectTwice (H := noConfigMapCluster)
       emptyDeployment classifier "s3://bucket/model" "" tt))))
  = [sharedVolume; sharedVolume].
Proof. repeat split. vm_compute. discriminate. Qed.

Lemma injection_idempotent_after_success_witness :
  CredentialContract (H := gcsCluster) /\
  snd (InjectModelInitializer (cluster := gcsCluster)
         emptyDeployment classifier "pvc://mymodel/v1" "" tt) = None /\
  injectTwice (H := gcsCluster)
    emptyDeployment classifier "pvc://mymodel/v1" "" tt
  = InjectModelInitializer (cluster := gcsCluster)
      emptyDeployment classifier "pvc://mymodel/v1" "" tt.
Proof.
  split; [exact gcsCluster_contract|].
  split; [reflexivity|].
  apply (injection_idempotent_after_success (cluster := gcsCluster)
           emptyDeployment classifier "pvc://mymodel/v1" "" tt
           gcsCluster_contract).
  reflexivity.
Defined.



Lemma injected_container_shape_witness :
  CredentialContract (H := gcsCluster) /\
  (forall container,
      In container (InitContainers (appsv1.Spec emptyDeployment)) ->
      Container_Name container <> ModelInitializerContainerName) /\
  snd (InjectModelInitializer (cluster := gcsCluster)
         emptyDeployment classifier "s3://bucket/model" "" tt) = None /\
  exists container,
    filter isModelInitializer
      (InitContainers (appsv1.Spec (fst (fst
         (InjectModelInitializer (cluster := gcsCluster)
            emptyDeployment classifier "s3://bucket/model" "" tt)))))
    = [container] /\
    List.length (Args container) = 2 /\
    nth 1 (Args container) "" = "/mnt/models".
Proof.
  split; [exact gcsCluster_contract|].
  split; [exact emptyDeployment_fresh|].
  split; [reflexivity|].
  destruct (injected_container_shape (cluster := gcsCluster)
              emptyDeployment classifier "s3://bucket/model" "" tt
              _ _ gcsCluster_contract emptyDeployment_fresh eq_refl)
    as (container & _ & _ & Hone & Hlen & _ & Harg).
  exists container. repeat split; assumption.
Defined.

(** C6 as stated fails.  The first call, for [classifier], returns [nil]
    and leaves [servedDeployment]; a call on that deployment for a second
    user container, [transformer], returns [nil] as well, by the guard,
    and leaves [transformer] with no mount at all, so without the
    read-only mount of the scratch volume. *)
Lemma second_user_container_left_unmounted :
  InjectModelInitializer (cluster := plainCluster)
    emptyDeployment classifier "s3://bucket/model" "" tt
  = ((servedDeployment, withReadMount classifier), None) /\
  InjectModelInitializer (cluster := plainCluster)
    servedDeployment transformer "s3://bucket/other" "" tt
  = ((servedDeployment, transformer), None) /\
  VolumeMounts transformer = [] /\
  ~ In sharedVolumeReadMount
       (VolumeMounts (snd (fst
          (InjectModelInitializer (cluster := plainCluster)
             servedDeployment transformer "s3://bucket/other" "" tt)))).
Proof. repeat split. vm_compute. tauto. Qed.

Lemma mounts_after_fresh_injection_witness :
  CredentialContract (H := gcsCluster) /\
  (forall container,
      In container (InitContainers (appsv1.Spec emptyDeployment)) ->
      Container_Name container <> ModelInitializerContainerName) /\
  snd (InjectModelInitializer (cluster := gcsCluster)
         emptyDeployment classifier "pvc://mymodel/v1" "" tt) = None /\
  exists container,
    InitContainers (appsv1.Spec (fst (fst
      (InjectModelInitializer (cluster := gcsCluster)
         emptyDeployment classifier "pvc://mymodel/v1" "" tt))))
    = [container] /\
    In sharedVolumeWriteMount (VolumeMounts container) /\
    In pvcSourceVolumeMount (VolumeMounts container) /\
    In sharedVolumeReadMount
       (VolumeMounts (snd (fst
          (InjectModelInitializer (cluster := gcsCluster)
             emptyDeployment classifier "pvc://mymodel/v1" "" tt)))).
Proof.
  split; [exact gcsCluster_contract|].
  split; [exact emptyDeployment_fresh|].
  split; [reflexivity|].
  destruct (mounts_after_fresh_injection (cluster := gcsCluster)
              emptyDeployment classifier "pvc://mymodel/v1" "" tt
              _ _ gcsCluster_contract emptyDeployment_fresh eq_refl)
    as (container & Hinit & _ & Hwrite & _ & _ & _ & _ & _ & _ & Hclaim).
  exists container. split; [exact Hinit|]. split; [exact Hwrite|].
  split; [exact (proj1 (proj2 (Hclaim eq_refl)))|].
  vm_compute. now left.
Defined.

(** Scenario B of the specification: [pvc://mymodel/v1] on an empty pod,
    with a service account that has no secrets. *)
Lemma claim_uri_rewritten_witness :
  CredentialContract (H := plainCluster) /\
  (forall container,
      In container (InitContainers (appsv1.Spec emptyDeployment)) ->
      Container_Name container <> ModelInitializerContainerName) /\
  strings.HasPrefix "pvc://mymodel/v1" PvcURIPrefix = true /\
  snd (InjectModelInitializer (cluster := plainCluster)
         emptyDeployment classifier "pvc://mymodel/v1" "" tt) = None /\
  Volumes (appsv1.Spec (fst (fst
    (InjectModelInitializer (cluster := plainCluster)
       emptyDeployment classifier "pvc://mymodel/v1" "" tt))))
  = [pvcSourceVolume "mymodel"; sharedVolume] /\
  exists container,
    InitContainers (appsv1.Spec (fst (fst
      (InjectModelInitializer (cluster := plainCluster)
         emptyDeployment classifier "pvc://mymodel/v1" "" tt))))
    = [container] /\
    nth 0 (Args container) "" = "/mnt/pvc/v1".
Proof.
  split; [exact plainCluster_contract|].
  split; [exact emptyDeployment_fresh|].
  split; [reflexivity|].
  split; [reflexivity|].
  split; [reflexivity|].
  destruct (claim_uri_rewritten (cluster := plainCluster)
              emptyDeployment classifier "pvc://mymodel/v1" "" tt
              _ _ plainCluster_contract emptyDeployment_fresh
              eq_refl eq_refl)
    as (pvcName & pvcPath & container & added
        & Hparse & Hinit & Harg & _).
  exists container. split; [exact Hinit|].
  rewrite Harg.
  assert (Hpath : pvcPath = "v1") by (vm_compute in Hparse; congruence).
  now rewrite Hpath.
Defined.

(** Scenario A of the specification: [s3://bucket/model] on an empty pod,
    no service account named, and a service account without secrets. *)
Lemma opaque_uri_passed_through_witness :
  CredentialContract (H := plainCluster) /\
  (forall container,
      In container (InitContainers (appsv1.Spec emptyDeployment)) ->
      Container_Name container <> ModelInitializerContainerName) /\
  strings.HasPrefix "s3://bucket/model" PvcURIPrefix = false /\
  snd (InjectModelInitializer (cluster := plainCluster)
         emptyDeployment classifier "s3://bucket/model" "" tt) = None /\
  Volumes (appsv1.Spec (fst (fst
    (InjectModelInitializer (cluster := plainCluster)
       emptyDeployment classifier "s3://bucket/model" "" tt))))
  = [sharedVolume] /\
  VolumeMounts (snd (fst
    (InjectModelInitializer (cluster := plainCluster)
       emptyDeployment classifier "s3://bucket/model" "" tt)))
  = [sharedVolumeReadMount] /\
  exists container,
    InitContainers (appsv1.Spec (fst (fst
      (InjectModelInitializer (cluster := plainCluster)
         emptyDeployment classifier "s3://bucket/model" "" tt))))
    = [container] /\
    Image container = "gcr.io/kfserving/model-initializer:latest" /\
    Args container = ["s3://bucket/model"; "/mnt/models"].
Proof.
  split; [exact plainCluster_contract|].
  split; [exact emptyDeployment_fresh|].
  split; [reflexivity|].
  split; [reflexivity|].
  split; [reflexivity|].
  split; [reflexivity|].
  destruct (opaque_uri_passed_through (cluster := plainCluster)
              emptyDeployment classifier "s3://bucket/model" "" tt
              _ _ plainCluster_contract emptyDeployment_fresh
              eq_refl eq_refl)
    as (container & added & Hinit & Himage & Hargs & _).
  exists container. split; [exact Hinit|]. split; assumption.
Defined.

(** * Further properties of the parser and of the injection *)

(** ** The parser *)

(** X1.  [parsePvcURI] returns no error, whatever the string: its error
    return is behind [len(parts) == 0], and [Split] never gives an empty
    list. *)
Theorem parsePvcURI_never_fails (srcURI : string) (e : error) :
  parsePvcURI srcURI <> Err e.
Proof.
  destruct (parsePvcURI_total srcURI) as (pvcName & pvcPath & Hok).
  rewrite Hok. discriminate.
Qed.

(** A claim name without ['/'], a ['/'] and a path, behind the prefix,
    parse to the name and the path. *)
Lemma parsePvcURI_name_path (pvcName pvcPath : string) :
  strings.ContainsByte pvcName "/" = false ->
  parsePvcURI (PvcURIPrefix ++ pvcName ++ "/" ++ pvcPath)
  = Ok (pvcName, pvcPath).
Proof.
  intros Hclean. unfold parsePvcURI.
  rewrite StringFacts.TrimPrefix_append.
  change (pvcName ++ "/" ++ pvcPath)
    with (pvcName ++ String "/" pvcPath).
  rewrite (StringFacts.Split_at_first_sep _ _ _ Hclean).
  pose proof (StringFacts.Split_length_pos pvcPath "/") as Hpos.
  assert (Hlt : (1 <? List.length (pvcName :: strings.Split pvcPath "/"))%nat
                = true)
    by (apply Nat.ltb_lt; simpl; lia).
  rewrite Hlt. cbn [nth skipn].
  now rewrite StringFacts.Join_Split.
Qed.

(** X2.  Parsing gives back what a claim URI was put together from: for a
    claim name without ['/'], [pvc://<name>/<path>] parses to the name and
    the path, whatever the path (empty, or with ['/'] inside), and
    [pvc://<name>] parses to the name and the empty path. *)
Theorem parsePvcURI_of_parts (pvcName pvcPath : string) :
  strings.ContainsByte pvcName "/" = false ->
  parsePvcURI (PvcURIPrefix ++ pvcName ++ "/" ++ pvcPath)
  = Ok (pvcName, pvcPath) /\
  parsePvcURI (PvcURIPrefix ++ pvcName) = Ok (pvcName, "").
Proof.
  intros Hclean. split.
  - now apply parsePvcURI_name_path.
  - unfold parsePvcURI.
    rewrite StringFacts.TrimPrefix_append.
    now rewrite (StringFacts.Split_without_sep _ _ Hclean).
Qed.

Lemma parsePvcURI_of_parts_witness :
  strings.ContainsByte "models" "/" = false /\
  parsePvcURI (PvcURIPrefix ++ "models" ++ "/" ++ "sklearn/iris/")
  = Ok ("models", "sklearn/iris/").
Proof.
  split; [reflexivity|].
  exact (proj1 (parsePvcURI_of_parts "models" "sklearn/iris/" eq_refl)).
Defined.

(** X3.  The parser does not ask for the prefix: a string that does not
    start with [pvc://] is parsed as if the prefix stood before it. *)
Theorem parsePvcURI_prefix_optional (srcURI : string) :
  strings.HasPrefix srcURI PvcURIPrefix = false ->
  parsePvcURI srcURI = parsePvcURI (PvcURIPrefix ++ srcURI).
Proof.
  intros Hno. unfold parsePvcURI.
  rewrite StringFacts.TrimPrefix_append.
  unfold strings.TrimPrefix at 1 2 3 4 5. rewrite Hno.
  pose proof (StringFacts.Split_length_pos srcURI "/") as Hpos.
  destruct (Nat.ltb_spec 1 (List.length (strings.Split srcURI "/")));
    [reflexivity|].
  destruct (Nat.eqb_spec (List.length (strings.Split srcURI "/")) 1);
    [reflexivity|lia].
Qed.

Lemma parsePvcURI_prefix_optional_witness :
  strings.HasPrefix "s3://bucket/model" PvcURIPrefix = false /\
  parsePvcURI "s3://bucket/model" = parsePvcURI "pvc://s3://bucket/model" /\
  parsePvcURI "s3://bucket/model" = Ok ("s3:", "/bucket/model").
Proof.
  split; [reflexivity|].
  split; [|reflexivity].
  exact (parsePvcURI_prefix_optional "s3://bucket/model" eq_refl).
Defined.

(** ** The injection *)
Section InjectorExtras.

Context `{cluster : Cluster}.

Variables (deployment : appsv1.Deployment) (userContainer : Container).
Variables (srcURI serviceAccountName : string) (Client otherClient : Client).

(** The URI stage hands on one thing only. *)
Lemma Staged_functional
    (vols vols' : list Volume) (mounts mounts' : list VolumeMount)
    (effective effective' : string) :
  Staged srcURI vols mounts effective ->
  Staged srcURI vols' mounts' effective' ->
  vols' = vols /\ mounts' = mounts /\ effective' = effective.
Proof.
  intros H H'. inversion H; inversion H'; subst; try congruence.
  - assert (Ok (pvcName0, pvcPath0) = Ok (pvcName, pvcPath)) as E
        by congruence.
    inversion E; subst. repeat split.
  - repeat split.
Qed.

(** X4.  No call returns the [InvalidURI] error: no source URI, however
    malformed, makes [InjectModelInitializer] fail. *)
Theorem injection_never_rejects_uri (msg : string) :
  snd (InjectModelInitializer deployment userContainer srcURI
         serviceAccountName Client)
  <> Some (InvalidURI msg).
Proof.
  pose proof (InjectModelInitializer_outcome deployment userContainer
                srcURI serviceAccountName Client) as Hout.
  inversion Hout; discriminate.
Qed.

(** X5.  What no call touches, whatever it returns: the deployment's
    namespace and the pod's service account stay; the init containers the
    pod had stay in place, with at most one appended; the user container
    keeps its name, image, arguments and environment, and the mounts it
    had, with at most one appended. *)
Theorem injection_frame :
  let result := InjectModelInitializer deployment userContainer srcURI
                  serviceAccountName Client in
  let deployment' := fst (fst result) in
  let userContainer' := snd (fst result) in
  appsv1.Namespace deployment' = appsv1.Namespace deployment /\
  ServiceAccountName (appsv1.Spec deployment')
  = ServiceAccountName (appsv1.Spec deployment) /\
  (exists appended,
      InitContainers (appsv1.Spec deployment')
      = (InitContainers (appsv1.Spec deployment) ++ appended)%list /\
      List.length appended <= 1) /\
  Container_Name userContainer' = Container_Name userContainer /\
  Image userContainer' = Image userContainer /\
  Args userContainer' = Args userContainer /\
  Env userContainer' = Env userContainer /\
  (exists appended,
      VolumeMounts userContainer'
      = (VolumeMounts userContainer ++ appended)%list /\
      List.length appended <= 1).
Proof.
  intros result deployment' userContainer'.
  pose proof (InjectModelInitializer_outcome deployment userContainer
                srcURI serviceAccountName Client) as Hout.
  fold result in Hout. subst deployment' userContainer'.
  destruct result as [[d u] err]. simpl.
  inversion Hout; subst; simpl; repeat split;
    try (exists []; rewrite app_nil_r; split; [reflexivity|simpl; lia]);
    try (eexists; split; [reflexivity|simpl; lia]).
Qed.

(** X6.  No call removes or reorders a volume: whatever it returns, the
    volumes the pod had are the first volumes of the pod afterwards.  The
    credential builder keeps to its contract. *)
Theorem injection_keeps_volumes :
  CredentialContract ->
  exists appended,
    Volumes (appsv1.Spec (fst (fst
      (InjectModelInitializer deployment userContainer srcURI
         serviceAccountName Client))))
    = (Volumes (appsv1.Spec deployment) ++ appended)%list.
Proof.
  intros Hcontract.
  pose proof (InjectModelInitializer_outcome deployment userContainer
                srcURI serviceAccountName Client) as Hout.
  destruct (InjectModelInitializer deployment userContainer srcURI
              serviceAccountName Client) as [[d u] err].
  simpl in *.
  inversion Hout; subst; simpl.
  - exists []. now rewrite app_nil_r.
  - eexists. reflexivity.
  - match goal with
    | Hcall : CreateSecretVolumeAndEnv _ _ _ _ _ = _ |- _ =>
        destruct (Hcontract _ _ _ _ _ _ _ _ Hcall)
          as (_ & _ & _ & _ & (added & ->))
    end.
    eexists. now rewrite <- app_assoc.
  - match goal with
    | Hcall : CreateSecretVolumeAndEnv _ _ _ _ _ = _ |- _ =>
        destruct (Hcontract _ _ _ _ _ _ _ _ Hcall)
          as (_ & _ & _ & _ & (added & ->))
    end.
    eexists. now rewrite <- app_assoc.
Qed.

(** X7.  After one call has returned [nil], every later call on the
    deployment it left returns [nil] and changes nothing, for any user
    container, source URI, service account and client: a second model of
    the same pod gets no init container, no volume and no mount.  The
    credential builder keeps to its contract. *)
Theorem later_calls_do_nothing
    (deployment' : appsv1.Deployment) (userContainer' : Container)
    (otherContainer : Container) (otherURI otherAccount : string) :
  CredentialContract ->
  InjectModelInitializer deployment userContainer srcURI
                         serviceAccountName Client
  = ((deployment', userContainer'), None) ->
  InjectModelInitializer deployment' otherContainer otherURI
                         otherAccount otherClient
  = ((deployment', otherContainer), None).
Proof.
  intros Hcontract H.
  apply InjectModelInitializer_guarded.
  apply InjectModelInitializer_inv in H.
  inversion H; subst; [assumption|].
  match goal with
  | Hcall : CreateSecretVolumeAndEnv _ _ _ _ _ = _ |- _ =>
      destruct (Hcontract _ _ _ _ _ _ _ _ Hcall) as (Hname & _)
  end.
  apply alreadyInjected_true. exists container. split.
  - simpl. apply in_or_app. right. now left.
  - exact Hname.
Qed.

(** One call while the config map is missing, on a pod without the
    reserved init container. *)
Lemma failed_lookup_step
    (d : appsv1.Deployment) (u : Container)
    (vols : list Volume) (mounts : list VolumeMount)
    (effective msg : string) :
  Client_Get Client {| types.Name := ControllerConfigMapName;
                       types.Namespace := ControllerNamespace |}
  = inl msg ->
  Staged srcURI vols mounts effective ->
  alreadyInjected (appsv1.Spec d) = false ->
  InjectModelInitializer d u srcURI serviceAccountName Client
  = ((withVolumes d (Volumes (appsv1.Spec d) ++ vols ++ [sharedVolume])%list,
      withReadMount u),
     Some (ClientError msg)).
Proof.
  intros Hget Hst Hfresh.
  pose proof (InjectModelInitializer_outcome d u srcURI
                serviceAccountName Client) as Hout.
  destruct (InjectModelInitializer d u srcURI serviceAccountName Client)
    as [st err].
  simpl in Hout. inversion Hout; subst; try congruence.
  match goal with
  | Hst' : Staged _ _ _ _ |- _ =>
      destruct (Staged_functional _ _ _ _ _ _ Hst Hst') as (-> & _ & _)
  end.
  match goal with
  | Hget' : Client_Get _ _ = inl ?m |- context [ClientError ?m] =>
      rewrite Hget in Hget'; inversion Hget'; reflexivity
  end.
Qed.

Lemma concat_repeat_snoc (A : Type) (l : list A) (n : nat) :
  (concat (repeat l n) ++ l)%list = concat (repeat l (S n)).
Proof.
  induction n as [|n IH]; simpl.
  - now rewrite app_nil_r.
  - simpl in IH. now rewrite <- app_assoc, IH.
Qed.

(** X8.  While the config map is missing, retries pile up: on a pod
    without the reserved init container, each of [n] calls in a row
    appends the volumes it built (the claim volume, for a claim URI, and
    the scratch volume) and one more read-only mount to the user
    container, so that after [n] calls the pod has [n] copies of them
    behind the volumes it had and still no init container appended; every
    call returns the error of the lookup. *)
Theorem failed_retries_pile_up
    (vols : list Volume) (mounts : list VolumeMount)
    (effective msg : string) (n : nat) :
  Client_Get Client {| types.Name := ControllerConfigMapName;
                       types.Namespace := ControllerNamespace |}
  = inl msg ->
  Staged srcURI vols mounts effective ->
  (forall container,
      In container (InitContainers (appsv1.Spec deployment)) ->
      Container_Name container <> ModelInitializerContainerName) ->
  let result := injectRepeatedly n deployment userContainer srcURI
                  serviceAccountName Client in
  Volumes (appsv1.Spec (fst (fst result)))
  = (Volumes (appsv1.Spec deployment)
       ++ concat (repeat (vols ++ [sharedVolume]) n))%list /\
  VolumeMounts (snd (fst result))
  = (VolumeMounts userContainer ++ repeat sharedVolumeReadMount n)%list /\
  InitContainers (appsv1.Spec (fst (fst result)))
  = InitContainers (appsv1.Spec deployment) /\
  (0 < n -> snd result = Some (ClientError msg)).
Proof.
  intros Hget Hst Hfresh. induction n as [|k IH]; simpl.
  - rewrite !app_nil_r. repeat split. lia.
  - simpl in IH.
    destruct (injectRepeatedly k deployment userContainer srcURI
                serviceAccountName Client) as [[d u] err].
    simpl in IH. destruct IH as (Hvols & Hmounts & Hinit & _).
    assert (Hfresh' : alreadyInjected (appsv1.Spec d) = false).
    { apply alreadyInjected_false. now rewrite Hinit. }
    rewrite (failed_lookup_step d u _ _ _ _ Hget Hst Hfresh').
    cbn [fst snd withVolumes withReadMount appsv1.set_Spec appsv1.Spec
         set_Volumes set_VolumeMounts Volumes VolumeMounts InitContainers].
    rewrite Hvols, Hmounts.
    repeat split; trivial.
    + rewrite <- app_assoc. f_equal.
      exact (concat_repeat_snoc _ (vols ++ [sharedVolume])%list k).
    + rewrite <- app_assoc. f_equal.
      change (sharedVolumeReadMount :: repeat sharedVolumeReadMount k)
        with (repeat sharedVolumeReadMount (S k)).
      symmetry. apply (repeat_cons k sharedVolumeReadMount).
Qed.

(** X9.  Naming no service account is the same as naming the pod's own:
    a call with the empty service account behaves as the call with the
    service account of the pod. *)
Theorem empty_account_is_pod_account :
  InjectModelInitializer deployment userContainer srcURI "" Client
  = InjectModelInitializer deployment userContainer srcURI
      (ServiceAccountName (appsv1.Spec deployment)) Client.
Proof.
  unfold InjectModelInitializer.
  destruct (alreadyInjected (appsv1.Spec deployment)); [reflexivity|].
  destruct (if strings.HasPrefix srcURI PvcURIPrefix then _ else _)
    as [[[vols mounts] effective]|err]; [|reflexivity].
  destruct (credentialsBuilder Client) as [builder|err]; [|reflexivity].
  cbn [set_Volumes ServiceAccountName String.eqb].
  destruct (ServiceAccountName (appsv1.Spec deployment) =? "")%string;
    reflexivity.
Qed.

(** X10.  On a cluster where the config map is found and the credential
    builder returns no error, the call returns [nil] for every deployment,
    user container, source URI and service account: what the URI looks
    like never decides whether the call succeeds. *)
Theorem healthy_cluster_always_succeeds (configMap : ConfigMap) :
  Client_Get Client {| types.Name := ControllerConfigMapName;
                       types.Namespace := ControllerNamespace |}
  = inr configMap ->
  (forall builder namespace account container volumes,
      snd (CreateSecretVolumeAndEnv builder namespace account
             container volumes) = None) ->
  snd (InjectModelInitializer deployment userContainer srcURI
         serviceAccountName Client) = None.
Proof.
  intros Hget Hquiet.
  pose proof (InjectModelInitializer_outcome deployment userContainer
                srcURI serviceAccountName Client) as Hout.
  inversion Hout; try reflexivity.
  - congruence.
  - match goal with
    | Hcall : CreateSecretVolumeAndEnv ?b ?ns ?a ?c ?v = _ |- _ =>
        pose proof (Hquiet b ns a c v) as Hnone;
        rewrite Hcall in Hnone; discriminate
    end.
Qed.

(** X11.  End to end for a claim URI: for a claim name without ['/'], a
    call with [pvc://<name>/<path>] that returns [nil], on a pod without
    the reserved init container, appends an init container whose arguments
    are [/mnt/pvc/<path>] and the local mount path and whose first two
    mounts are the read-only claim mount and the scratch mount, and
    appends to the pod's volumes the claim volume for [<name>] and the
    scratch volume.  The credential builder keeps to its contract. *)
Theorem claim_uri_end_to_end
    (pvcName pvcPath : string)
    (deployment' : appsv1.Deployment) (userContainer' : Container) :
  CredentialContract ->
  (forall container,
      In container (InitContainers (appsv1.Spec deployment)) ->
      Container_Name container <> ModelInitializerContainerName) ->
  strings.ContainsByte pvcName "/" = false ->
  InjectModelInitializer deployment userContainer
    (PvcURIPrefix ++ pvcName ++ "/" ++ pvcPath) serviceAccountName Client
  = ((deployment', userContainer'), None) ->
  exists container more added,
    InitContainers (appsv1.Spec deployment')
    = (InitContainers (appsv1.Spec deployment) ++ [container])%list /\
    Args container
    = [PvcSourceMountPath ++ "/" ++ pvcPath; DefaultModelLocalMountPath] /\
    VolumeMounts container
    = ([pvcSourceVolumeMount; sharedVolumeWriteMount] ++ more)%list /\
    Volumes (appsv1.Spec deployment')
    = (Volumes (appsv1.Spec deployment)
         ++ [pvcSourceVolume pvcName; sharedVolume] ++ added)%list.
Proof.
  intros Hcontract Hfresh Hclean H.
  destruct (fresh_success_committed _ _ _ _ _ _ _ Hcontract Hfresh H)
    as (vols & mounts & effective & configMap & container & more & added
        & Hst & _ & Hinit & Hvols & _ & _ & Hargs & Hmounts & _).
  pose proof (parsePvcURI_name_path pvcName pvcPath Hclean) as Hparse.
  inversion Hst; subst.
  - match goal with
    | Hp : parsePvcURI _ = Ok (?n, ?p) |- _ =>
        rewrite Hparse in Hp; inversion Hp; subst
    end.
    exists container, more, added. repeat split; assumption.
  - match goal with
    | Hp : strings.HasPrefix _ _ = false |- _ =>
        rewrite StringFacts.HasPrefix_append in Hp; discriminate
    end.
Qed.

End InjectorExtras.

(** ** The further properties on the sample clusters *)

Lemma configuredDeployment_fresh :
  forall container,
    In container (InitContainers (appsv1.Spec configuredDeployment)) ->
    Container_Name container <> ModelInitializerContainerName.
Proof. intros container [<-|[]]. discriminate. Qed.

(** The credential builder fails after it has attached a secret: the
    volume the pod had is still the first one. *)
Lemma injection_keeps_volumes_witness :
  CredentialContract (H := brokenSecretCluster) /\
  snd (InjectModelInitializer (cluster := brokenSecretCluster)
         configuredDeployment classifier "pvc://mymodel/v1" "" tt)
  = Some (CredentialError "secret has no credential file") /\
  exists appended,
    Volumes (appsv1.Spec (fst (fst
      (InjectModelInitializer (cluster := brokenSecretCluster)
         configuredDeployment classifier "pvc://mymodel/v1" "" tt))))
    = (Volumes (appsv1.Spec configuredDeployment) ++ appended)%list.
Proof.
  split; [exact brokenSecretCluster_contract|].
  split; [reflexivity|].
  exact (injection_keeps_volumes (cluster := brokenSecretCluster)
           configuredDeployment classifier "pvc://mymodel/v1" "" tt
           brokenSecretCluster_contract).
Defined.

(** A second model of the same pod, with a claim URI and a service
    account of its own, after the first one has been served. *)
Lemma later_calls_do_nothing_witness :
  CredentialContract (H := gcsCluster) /\
  snd (InjectModelInitializer (cluster := gcsCluster)
         configuredDeployment classifier "s3://bucket/model" "" tt) = None /\
  InjectModelInitializer (cluster := gcsCluster)
    (fst (fst (InjectModelInitializer (cluster := gcsCluster)
                 configuredDeployment classifier "s3://bucket/model" "" tt)))
    transformer "pvc://mymodel/v1" "other-account" tt
  = ((fst (fst (InjectModelInitializer (cluster := gcsCluster)
                  configuredDeployment classifier "s3://bucket/model" "" tt)),
      transformer),
     None).
Proof.
  split; [exact gcsCluster_contract|].
  split; [reflexivity|].
  exact (later_calls_do_nothing (cluster := gcsCluster)
           configuredDeployment classifier "s3://bucket/model" "" tt tt
           _ _ transformer "pvc://mymodel/v1" "other-account"
           gcsCluster_contract eq_refl).
Defined.

(** Three calls for a claim URI while the config map is missing. *)
Lemma failed_retries_pile_up_witness :
  Client_Get (Cluster := noConfigMapCluster) tt
    {| types.Name := ControllerConfigMapName;
       types.Namespace := ControllerNamespace (Cluster := noConfigMapCluster) |}
  = inl "configmaps seldon-config not found" /\
  Staged "pvc://mymodel/v1" [pvcSourceVolume "mymodel"]
         [pvcSourceVolumeMount] (PvcSourceMountPath ++ "/" ++ "v1") /\
  Volumes (appsv1.Spec (fst (fst
    (injectRepeatedly (H := noConfigMapCluster) 3
       emptyDeployment classifier "pvc://mymodel/v1" "" tt))))
  = [pvcSourceVolume "mymodel"; sharedVolume;
     pvcSourceVolume "mymodel"; sharedVolume;
     pvcSourceVolume "mymodel"; sharedVolume] /\
  VolumeMounts (snd (fst
    (injectRepeatedly (H := noConfigMapCluster) 3
       emptyDeployment classifier "pvc://mymodel/v1" "" tt)))
  = [sharedVolumeReadMount; sharedVolumeReadMount; sharedVolumeReadMount].
Proof.
  assert (Hst : Staged "pvc://mymodel/v1" [pvcSourceVolume "mymodel"]
                       [pvcSourceVolumeMount]
                       (PvcSourceMountPath ++ "/" ++ "v1"))
    by (apply StagedClaim; reflexivity).
  split; [reflexivity|].
  split; [exact Hst|].
  destruct (failed_retries_pile_up (cluster := noConfigMapCluster)
              emptyDeployment classifier "pvc://mymodel/v1" "" tt
              _ _ _ _ 3 eq_refl Hst emptyDeployment_fresh)
    as (Hvols & Hmounts & _).
  split; [exact Hvols|exact Hmounts].
Defined.

(** The claim URI with nothing after the prefix, on a healthy cluster. *)
Lemma healthy_cluster_always_succeeds_witness :
  Client_Get (Cluster := plainCluster) tt
    {| types.Name := ControllerConfigMapName;
       types.Namespace := ControllerNamespace (Cluster := plainCluster) |}
  = inr tt /\
  (forall builder namespace account container volumes,
      snd (CreateSecretVolumeAndEnv (Cluster := plainCluster)
             builder namespace account container volumes) = None) /\
  snd (InjectModelInitializer (cluster := plainCluster)
         configuredDeployment classifier "pvc://" "" tt) = None.
Proof.
  assert (Hquiet : forall builder namespace account container volumes,
             snd (CreateSecretVolumeAndEnv (Cluster := plainCluster)
                    builder namespace account container volumes) = None)
    by reflexivity.
  split; [reflexivity|].
  split; [exact Hquiet|].
  exact (healthy_cluster_always_succeeds (cluster := plainCluster)
           configuredDeployment classifier "pvc://" "" tt tt
           eq_refl Hquiet).
Defined.

Lemma claim_uri_end_to_end_witness :
  CredentialContract (H := gcsCluster) /\
  (forall container,
      In container (InitContainers (appsv1.Spec configuredDeployment)) ->
      Container_Name container <> ModelInitializerContainerName) /\
  strings.ContainsByte "models" "/" = false /\
  snd (InjectModelInitializer (cluster := gcsCluster)
         configuredDeployment classifier
         (PvcURIPrefix ++ "models" ++ "/" ++ "sklearn/iris") "" tt) = None /\
  exists container more added,
    Args container = ["/mnt/pvc/sklearn/iris"; "/mnt/models"] /\
    VolumeMounts container
    = ([pvcSourceVolumeMount; sharedVolumeWriteMount] ++ more)%list /\
    Volumes (appsv1.Spec (fst (fst
      (InjectModelInitializer (cluster := gcsCluster)
         configuredDeployment classifier
         (PvcURIPrefix ++ "models" ++ "/" ++ "sklearn/iris") "" tt))))
    = (Volumes (appsv1.Spec configuredDeployment)
         ++ [pvcSourceVolume "models"; sharedVolume] ++ added)%list.
Proof.
  split; [exact gcsCluster_contract|].
  split; [exact configuredDeployment_fresh|].
  split; [reflexivity|].
  split; [reflexivity|].
  destruct (claim_uri_end_to_end (cluster := gcsCluster)
              configuredDeployment classifier "" tt
              "models" "sklearn/iris" _ _
              gcsCluster_contract configuredDeployment_fresh
              eq_refl eq_refl)
    as (container & more & added & _ & Hargs & Hmounts & Hvols).
  exists container, more, added.
  split; [exact Hargs|]. split; [exact Hmounts|exact Hvols].
Defined.

(** ** What the parser drops, and what the user container is for *)

(** X12.  The parser cannot tell a claim URI that ends in ['/'] from the
    one without it: for a claim name without ['/'], [pvc://<name>/] and
    [pvc://<name>] parse to the same result, the name and the empty
    path. *)
Theorem parsePvcURI_drops_last_separator (pvcName : string) :
  strings.ContainsByte pvcName "/" = false ->
  parsePvcURI (PvcURIPrefix ++ pvcName ++ "/")
  = parsePvcURI (PvcURIPrefix ++ pvcName).
Proof.
  intros Hclean.
  pose proof (parsePvcURI_name_path pvcName "" Hclean) as Hslash.
  change (pvcName ++ "/" ++ "") with (pvcName ++ "/") in Hslash.
  rewrite Hslash. unfold parsePvcURI.
  rewrite StringFacts.TrimPrefix_append.
  now rewrite (StringFacts.Split_without_sep _ _ Hclean).
Qed.

Lemma parsePvcURI_drops_last_separator_witness :
  strings.ContainsByte "mymodel" "/" = false /\
  parsePvcURI "pvc://mymodel/" = parsePvcURI "pvc://mymodel".
Proof.
  split; [reflexivity|].
  exact (parsePvcURI_drops_last_separator "mymodel" eq_refl).
Defined.

Section UserContainer.

Context `{cluster : Cluster}.

Variables (deployment : appsv1.Deployment) (userContainer : Container).
Variables (srcURI serviceAccountName : string) (Client : Client).


(** X14.  The user container gets the read-only scratch mount exactly
    when the guard does not fire, whatever the call returns afterwards:
    it is left as it was when the pod has the reserved init container,
    and has the mount appended otherwise, on success and on error
    alike. *)
Theorem user_container_mounted_unless_guarded :
  snd (fst (InjectModelInitializer deployment userContainer srcURI
              serviceAccountName Client))
  = if alreadyInjected (appsv1.Spec deployment)
    then userContainer
    else set_VolumeMounts userContainer
           (VolumeMounts userContainer ++ [sharedVolumeReadMount])%list.
Proof.
  pose proof (InjectModelInitializer_outcome deployment userContainer
                srcURI serviceAccountName Client) as Hout.
  destruct (InjectModelInitializer deployment userContainer srcURI
              serviceAccountName Client) as [[d u] err].
  simpl in *.
  inversion Hout; subst;
    match goal with
    | Hguard : alreadyInjected _ = _ |- _ => rewrite Hguard
    end; reflexivity.
Qed.

End UserContainer.
